(** * Shallow embedding of [src/holdem/vanillaholdem.rs]

    The chip declares a PLONKish constraint system: selectors, advice and
    instance columns, and named gates whose polynomials must vanish on every
    row.  Field elements are integers read modulo the field characteristic
    [p]; the gate polynomials are kept as halo2 [Expression] trees and are
    evaluated on an assignment table. *)

From Stdlib Require Import ZArith List String Bool Lia.
Import ListNotations.
Open Scope Z_scope.

(** ** halo2 data model *)

(** Column and selector handles are indices handed out by the constraint
    system in allocation order. *)
Definition Selector := nat.
Definition AdviceColumn := nat.
Definition InstanceColumn := nat.

(** [halo2_proofs::plonk::Expression], restricted to the variants the
    crate's gates can build (no fixed columns, no challenges).  A query
    carries its column and its [Rotation] as an offset. *)
Inductive Expression : Type :=
| Constant (c : Z)
| SelectorQ (s : Selector)
| Advice (col : AdviceColumn) (rot : Z)
| Instance (col : InstanceColumn) (rot : Z)
| Negated (e : Expression)
| Sum (a b : Expression)
| Product (a b : Expression)
| Scaled (e : Expression) (c : Z).

(** Column handles of any kind, as used by the permutation argument. *)
Inductive AnyColumn : Type :=
| AnyAdvice (c : AdviceColumn)
| AnyInstance (c : InstanceColumn).

Record Gate : Type := mkGate {
  gate_name : string;
  gate_polys : list Expression
}.

(** The part of [ConstraintSystem<F>] the crate touches: allocation counters,
    registered gates and the columns enabled for equality (copy)
    constraints. *)
Record ConstraintSystem : Type := mkCS {
  num_selectors : nat;
  num_advice_columns : nat;
  num_instance_columns : nat;
  gates : list Gate;
  permutation_columns : list AnyColumn
}.

Definition empty_cs : ConstraintSystem := mkCS 0 0 0 [] [].

(** A small state monad threading the [&mut ConstraintSystem]. *)
Definition CSM (A : Type) : Type := ConstraintSystem -> A * ConstraintSystem.

Definition cs_ret {A} (a : A) : CSM A := fun cs => (a, cs).
Definition cs_bind {A B} (m : CSM A) (k : A -> CSM B) : CSM B :=
  fun cs => let (a, cs') := m cs in k a cs'.

Notation "x <- m ;; k" := (cs_bind m (fun x => k))
  (at level 61, m at next level, right associativity).

(** [meta.selector()] *)
Definition selector : CSM Selector :=
  fun cs => (num_selectors cs,
             mkCS (S (num_selectors cs)) (num_advice_columns cs)
                  (num_instance_columns cs) (gates cs) (permutation_columns cs)).

(** [meta.advice_column()] *)
Definition advice_column : CSM AdviceColumn :=
  fun cs => (num_advice_columns cs,
             mkCS (num_selectors cs) (S (num_advice_columns cs))
                  (num_instance_columns cs) (gates cs) (permutation_columns cs)).

(** [meta.instance_column()] *)
Definition instance_column : CSM InstanceColumn :=
  fun cs => (num_instance_columns cs,
             mkCS (num_selectors cs) (num_advice_columns cs)
                  (S (num_instance_columns cs)) (gates cs) (permutation_columns cs)).

(** [meta.create_gate(name, |meta| constraints)]: the closure only issues
    queries, so it is represented by the list of polynomials it returns. *)
Definition create_gate (name : string) (polys : list Expression) : CSM unit :=
  fun cs => (tt, mkCS (num_selectors cs) (num_advice_columns cs)
                      (num_instance_columns cs) (gates cs ++ [mkGate name polys])
                      (permutation_columns cs)).

(** Overloaded operators on [Expression]: [a - b] is [a + (-b)]. *)
Definition e_sub (a b : Expression) : Expression := Sum a (Negated b).
Definition e_mul (a b : Expression) : Expression := Product a b.

(** [Rotation::cur()] *)
Definition cur : Z := 0.

(** ** [VanillaHoldemConfig] and [VanillaHoldemChip::configure] *)

Record VanillaHoldemConfig : Type := mkConfig {
  q_straight : Selector;
  q_flush : Selector;
  q_one_pair : Selector;
  q_two_pair : Selector;
  q_three_of_a_kind : Selector;
  q_four_of_a_kind : Selector;
  cards : list AdviceColumn;          (* [Column<Advice>; 5] *)
  table_cards : list InstanceColumn   (* [Column<Instance>; 2] *)
}.

(** Gate "straight": [for i in 1..5], [q_straight * (cards[i] - 1)]. *)
Definition straight_gate (q_straight : Selector) (cards : list AdviceColumn)
  : list Expression :=
  map (fun i => let diff := Advice (nth i cards O) cur in
                e_mul (SelectorQ q_straight) (e_sub diff (Constant 1)))
      (seq 1 4).

(** Gate "flush": [for i in 0..4], [q_flush * (cards[i] - cards[i + 1])]. *)
Definition flush_gate (q_flush : Selector) (cards : list AdviceColumn)
  : list Expression :=
  map (fun i => let cur_e := Advice (nth i cards O) cur in
                let next := Advice (nth (S i) cards O) cur in
                e_mul (SelectorQ q_flush) (e_sub cur_e next))
      (seq 0 4).

(** Gate "one pair": [q_one_pair * (1 - num_of_pair)]. *)
Definition one_pair_gate (q_one_pair : Selector) (num_of_pair : AdviceColumn)
  : list Expression :=
  [e_mul (SelectorQ q_one_pair) (e_sub (Constant 1) (Advice num_of_pair cur))].

(** Gate "two pair": [q_two_pair * (2 - num_of_pair)]. *)
Definition two_pair_gate (q_two_pair : Selector) (num_of_pair : AdviceColumn)
  : list Expression :=
  [e_mul (SelectorQ q_two_pair) (e_sub (Constant 2) (Advice num_of_pair cur))].

(** Gate "three of a kind": [q_three_of_a_kind * (3 - num_of_same_kind)]. *)
Definition three_of_a_kind_gate (q_three_of_a_kind : Selector)
  (num_of_same_kind : AdviceColumn) : list Expression :=
  [e_mul (SelectorQ q_three_of_a_kind)
         (e_sub (Constant 3) (Advice num_of_same_kind cur))].

(** Gate "four of a kind": [q_four_of_a_kind * (4 - num_of_same_kind)]. *)
Definition four_of_a_kind_gate (q_four_of_a_kind : Selector)
  (num_of_same_kind : AdviceColumn) : list Expression :=
  [e_mul (SelectorQ q_four_of_a_kind)
         (e_sub (Constant 4) (Advice num_of_same_kind cur))].

(** Gate "full house", queried with [q_one_pair] and [q_three_of_a_kind]:
    [q_three * (3 - num_of_same_kind)] then [q_pair * (1 - num_of_pair)]. *)
Definition full_house_gate (q_pair q_three : Selector)
  (num_of_pair num_of_same_kind : AdviceColumn) : list Expression :=
  [e_mul (SelectorQ q_three) (e_sub (Constant 3) (Advice num_of_same_kind cur));
   e_mul (SelectorQ q_pair) (e_sub (Constant 1) (Advice num_of_pair cur))].

(** [VanillaHoldemChip::configure]; note the parameter order [q_flush]
    before [q_straight]. *)
Definition chip_configure
  (q_flush q_straight q_one_pair q_two_pair q_three_of_a_kind q_four_of_a_kind
     : Selector)
  (cards : list AdviceColumn) (table_cards : list InstanceColumn)
  (num_of_pair num_of_same_kind : AdviceColumn) : CSM VanillaHoldemConfig :=
  _ <- create_gate "straight" (straight_gate q_straight cards) ;;
  _ <- create_gate "flush" (flush_gate q_flush cards) ;;
  _ <- create_gate "one pair" (one_pair_gate q_one_pair num_of_pair) ;;
  _ <- create_gate "two pair" (two_pair_gate q_two_pair num_of_pair) ;;
  _ <- create_gate "three of a kind"
         (three_of_a_kind_gate q_three_of_a_kind num_of_same_kind) ;;
  _ <- create_gate "four of a kind"
         (four_of_a_kind_gate q_four_of_a_kind num_of_same_kind) ;;
  _ <- create_gate "full house"
         (full_house_gate q_one_pair q_three_of_a_kind num_of_pair num_of_same_kind) ;;
  cs_ret (mkConfig q_straight q_flush q_one_pair q_two_pair q_three_of_a_kind
                   q_four_of_a_kind cards table_cards).

(** The body of [VanillaHoldemCircuit::configure], also returning its two
    locals [num_of_pair] and [num_of_same_kind], which the config drops. *)
Definition circuit_configure_locals
  : CSM (VanillaHoldemConfig * AdviceColumn * AdviceColumn) :=
  q_flush <- selector ;;
  q_straight <- selector ;;
  q_one_pair <- selector ;;
  q_two_pair <- selector ;;
  q_three_of_a_kind <- selector ;;
  q_four_of_a_kind <- selector ;;
  c0 <- advice_column ;; c1 <- advice_column ;; c2 <- advice_column ;;
  c3 <- advice_column ;; c4 <- advice_column ;;
  t0 <- instance_column ;; t1 <- instance_column ;;
  num_of_pair <- advice_column ;;
  num_of_same_kind <- advice_column ;;
  cfg <- chip_configure q_flush q_straight q_one_pair q_two_pair
           q_three_of_a_kind q_four_of_a_kind [c0; c1; c2; c3; c4] [t0; t1]
           num_of_pair num_of_same_kind ;;
  cs_ret (cfg, num_of_pair, num_of_same_kind).

(** [<VanillaHoldemCircuit<F> as Circuit<F>>::configure] *)
Definition circuit_configure : CSM VanillaHoldemConfig :=
  fun cs => let '((cfg, _, _), cs') := circuit_configure_locals cs in (cfg, cs').

(** The constraint system and config produced from a fresh builder. *)
Definition holdem_cs : ConstraintSystem := snd (circuit_configure empty_cs).
Definition holdem_config : VanillaHoldemConfig := fst (circuit_configure empty_cs).
Definition holdem_num_of_pair : AdviceColumn :=
  snd (fst (fst (circuit_configure_locals empty_cs))).
Definition holdem_num_of_same_kind : AdviceColumn :=
  snd (fst (circuit_configure_locals empty_cs)).

(** ** Evaluation on an assignment table *)

(** An assignment: selector flags, advice and instance cells, by column and
    row.  Cells hold integers read modulo [p]. *)
Record Table : Type := mkTable {
  t_sel : Selector -> Z -> bool;
  t_adv : AdviceColumn -> Z -> Z;
  t_inst : InstanceColumn -> Z -> Z
}.

(** [Expression::evaluate] at row [r]; a selector evaluates to 1 or 0. *)
Fixpoint eval (t : Table) (r : Z) (e : Expression) : Z :=
  match e with
  | Constant c => c
  | SelectorQ s => if t_sel t s r then 1 else 0
  | Advice c rot => t_adv t c (r + rot)
  | Instance c rot => t_inst t c (r + rot)
  | Negated a => - eval t r a
  | Sum a b => eval t r a + eval t r b
  | Product a b => eval t r a * eval t r b
  | Scaled a c => eval t r a * c
  end.

Section Field.
Variable p : Z.

(** A polynomial constraint holds at a row when it vanishes in the field. *)
Definition poly_holds (t : Table) (r : Z) (e : Expression) : bool :=
  Z.eqb (eval t r e mod p) 0.

(** Every polynomial of every registered gate vanishes at row [r]. *)
Definition row_satisfied (cs : ConstraintSystem) (t : Table) (r : Z) : bool :=
  forallb (fun g => forallb (poly_holds t r) (gate_polys g)) (gates cs).

End Field.

(** The four counting categories of the spec, each with its selector in the
    config, the auxiliary column its gate reads and the gate's constant. *)
Inductive CountingCategory : Type :=
| OnePair | TwoPair | ThreeOfAKind | FourOfAKind.

Definition category_selector (cfg : VanillaHoldemConfig) (c : CountingCategory)
  : Selector :=
  match c with
  | OnePair => q_one_pair cfg
  | TwoPair => q_two_pair cfg
  | ThreeOfAKind => q_three_of_a_kind cfg
  | FourOfAKind => q_four_of_a_kind cfg
  end.

Definition category_column (c : CountingCategory) : AdviceColumn :=
  match c with
  | OnePair | TwoPair => holdem_num_of_pair
  | ThreeOfAKind | FourOfAKind => holdem_num_of_same_kind
  end.

Definition category_constant (c : CountingCategory) : Z :=
  match c with
  | OnePair => 1
  | TwoPair => 2
  | ThreeOfAKind => 3
  | FourOfAKind => 4
  end.

(** Comparison schema for the full-house gate: [VanillaHoldemChip::configure]
    with the "full house" [create_gate] call left out, run on the columns
    allocated by [VanillaHoldemCircuit::configure]. *)
Definition chip_configure_no_full_house
  (q_flush q_straight q_one_pair q_two_pair q_three_of_a_kind q_four_of_a_kind
     : Selector)
  (cards : list AdviceColumn) (table_cards : list InstanceColumn)
  (num_of_pair num_of_same_kind : AdviceColumn) : CSM VanillaHoldemConfig :=
  _ <- create_gate "straight" (straight_gate q_straight cards) ;;
  _ <- create_gate "flush" (flush_gate q_flush cards) ;;
  _ <- create_gate "one pair" (one_pair_gate q_one_pair num_of_pair) ;;
  _ <- create_gate "two pair" (two_pair_gate q_two_pair num_of_pair) ;;
  _ <- create_gate "three of a kind"
         (three_of_a_kind_gate q_three_of_a_kind num_of_same_kind) ;;
  _ <- create_gate "four of a kind"
         (four_of_a_kind_gate q_four_of_a_kind num_of_same_kind) ;;
  cs_ret (mkConfig q_straight q_flush q_one_pair q_two_pair q_three_of_a_kind
                   q_four_of_a_kind cards table_cards).

Definition circuit_configure_no_full_house : CSM VanillaHoldemConfig :=
  q_flush <- selector ;;
  q_straight <- selector ;;
  q_one_pair <- selector ;;
  q_two_pair <- selector ;;
  q_three_of_a_kind <- selector ;;
  q_four_of_a_kind <- selector ;;
  c0 <- advice_column ;; c1 <- advice_column ;; c2 <- advice_column ;;
  c3 <- advice_column ;; c4 <- advice_column ;;
  t0 <- instance_column ;; t1 <- instance_column ;;
  num_of_pair <- advice_column ;;
  num_of_same_kind <- advice_column ;;
  chip_configure_no_full_house q_flush q_straight q_one_pair q_two_pair
    q_three_of_a_kind q_four_of_a_kind [c0; c1; c2; c3; c4] [t0; t1]
    num_of_pair num_of_same_kind.

Definition holdem_cs_no_full_house : ConstraintSystem :=
  snd (circuit_configure_no_full_house empty_cs).

(** ** Witness assignment: [VanillaHoldemChip::assign_card] *)

(** [Assigned<F>] and [Value<Assigned<F>>] ([None] is [Value::unknown()]). *)
Inductive Assigned : Type :=
| AZero
| ATrivial (x : Z)
| ARational (n d : Z).

Definition Value : Type := option Assigned.

(** The variants of [halo2_proofs::plonk::Error] a region call can return. *)
Inductive Error : Type :=
| Synthesis
| NotEnoughRowsAvailable (current_k : nat)
| ColumnNotInPermutation (c : AnyColumn)
| BoundsFailure.

Inductive Result (A : Type) : Type :=
| Ok (a : A)
| Err (e : Error).
Arguments Ok {A} a.
Arguments Err {A} e.

(** Calls a region closure can make on its [Region<F>], with offsets
    relative to the region start. *)
Inductive RegionOp : Type :=
| OpAssignAdvice (col : AdviceColumn) (offset : nat) (v : Value)
| OpEnableSelector (s : Selector) (offset : nat)
| OpAssignAdviceFromInstance (inst : InstanceColumn) (row : nat)
                             (col : AdviceColumn) (offset : nat)
| OpConstrainEqual (a : AnyColumn) (ra : Z) (b : AnyColumn) (rb : Z).

(** The backend's witness store: advice cells, selector flags, public
    inputs and requested copy constraints. *)
Record Store : Type := mkStore {
  st_adv : AdviceColumn -> Z -> option Value;
  st_sel : Selector -> Z -> bool;
  st_inst : InstanceColumn -> Z -> Z;
  st_copies : list (AnyColumn * Z * AnyColumn * Z)
}.

(** Effect of an accepted region call at a region starting at row [start]. *)
Definition apply_op (start : Z) (op : RegionOp) (st : Store) : Store :=
  match op with
  | OpAssignAdvice col off v =>
      mkStore (fun c r => if andb (Nat.eqb c col) (Z.eqb r (start + Z.of_nat off))
                          then Some v else st_adv st c r)
              (st_sel st) (st_inst st) (st_copies st)
  | OpEnableSelector s off =>
      mkStore (st_adv st)
              (fun s' r => if andb (Nat.eqb s' s) (Z.eqb r (start + Z.of_nat off))
                           then true else st_sel st s' r)
              (st_inst st) (st_copies st)
  | OpAssignAdviceFromInstance i row col off =>
      let v := Some (ATrivial (st_inst st i (Z.of_nat row))) in
      mkStore (fun c r => if andb (Nat.eqb c col) (Z.eqb r (start + Z.of_nat off))
                          then Some v else st_adv st c r)
              (st_sel st) (st_inst st)
              ((AnyInstance i, Z.of_nat row, AnyAdvice col, start + Z.of_nat off)
                 :: st_copies st)
  | OpConstrainEqual a ra b rb =>
      mkStore (st_adv st) (st_sel st) (st_inst st) ((a, ra, b, rb) :: st_copies st)
  end.

Section Backend.
(** Whether the backend rejects a region call (cell already assigned,
    column outside the schema, row out of range, ...) is its own business;
    it sees the store, the region start and the call. *)
Variable backend_reject : Store -> Z -> RegionOp -> option Error.

(** The region closure's monad: the backend store, plus the log of region
    calls issued so far, with [?] short-circuiting on errors. *)
Definition RM (A : Type) : Type :=
  Store * list RegionOp -> Result A * (Store * list RegionOp).

Definition rm_ret {A} (a : A) : RM A := fun s => (Ok a, s).
Definition rm_bind {A B} (m : RM A) (k : A -> RM B) : RM B :=
  fun s => match m s with
           | (Ok a, s') => k a s'
           | (Err e, s') => (Err e, s')
           end.

(** One call on [Region<F>] at a region starting at row [start]. *)
Definition region_call (start : Z) (op : RegionOp) : RM unit :=
  fun '(st, log) =>
    let log' := log ++ [op] in
    match backend_reject st start op with
    | Some e => (Err e, (st, log'))
    | None => (Ok tt, (apply_op start op st, log'))
    end.

(** [region.assign_advice(|| .., column, offset, || value)] *)
Definition assign_advice (start : Z) (col : AdviceColumn) (offset : nat)
  (v : Value) : RM unit :=
  region_call start (OpAssignAdvice col offset v).

(** [for i in xs { body(i)?; }] *)
Fixpoint for_each (xs : list nat) (body : nat -> RM unit) : RM unit :=
  match xs with
  | [] => rm_ret tt
  | i :: xs' => rm_bind (body i) (fun _ => for_each xs' body)
  end.

(** [layouter.assign_region(|| name, closure)]: the floor planner places the
    region at row [start] and runs the closure on it.  (The [V1] planner
    also runs the closure once in a measurement pass, which reaches no
    backend and is not modelled.) *)
Definition assign_region (start : Z) (closure : Z -> RM unit) : RM unit :=
  closure start.

(** [VanillaHoldemChip::assign_card]: the hand is [cards] chained with
    [table_cards]; [try_into().unwrap()] cannot fail on 2 + 3 values. *)
Definition assign_card (cfg : VanillaHoldemConfig) (start : Z)
  (cards_v : Value * Value) (table_cards_v : Value * Value * Value) : RM unit :=
  let '(c0, c1) := cards_v in
  let '(t0, t1, t2) := table_cards_v in
  let hand := [c0; c1; t0; t1; t2] in
  assign_region start (fun region_start =>
    rm_bind
      (for_each (seq 0 5) (fun i =>
         assign_advice region_start (nth i (cards cfg) O) 0 (nth i hand None)))
      (fun _ => rm_ret tt)).

(** The five advice writes [assign_card] issues, in order. *)
Definition assign_card_ops (cfg : VanillaHoldemConfig)
  (cards_v : Value * Value) (table_cards_v : Value * Value * Value)
  : list RegionOp :=
  let '(c0, c1) := cards_v in
  let '(t0, t1, t2) := table_cards_v in
  map (fun '(i, v) => OpAssignAdvice (nth i (cards cfg) O) 0 v)
      (combine (seq 0 5) [c0; c1; t0; t1; t2]).

(** Running a list of region calls directly against the backend: the final
    store when every call is accepted, [None] at the first rejection. *)
Fixpoint backend_run (start : Z) (st : Store) (ops : list RegionOp) : option Store :=
  match ops with
  | [] => Some st
  | op :: ops' =>
      match backend_reject st start op with
      | Some _ => None
      | None => backend_run start (apply_op start op st) ops'
      end
  end.

(** Issuing a list of region calls in order, stopping at the first error. *)
Fixpoint run_calls (start : Z) (ops : list RegionOp) : RM unit :=
  match ops with
  | [] => rm_ret tt
  | op :: ops' => rm_bind (region_call start op)
                          (fun _ => run_calls start ops')
  end.

End Backend.

(** Whether an expression queries an instance column. *)
Fixpoint refs_instance (e : Expression) : bool :=
  match e with
  | Constant _ | SelectorQ _ | Advice _ _ => false
  | Instance _ _ => true
  | Negated a | Scaled a _ => refs_instance a
  | Sum a b | Product a b => refs_instance a || refs_instance b
  end.

(** A row of the built circuit: the flush selector on, the five cards all
    equal to 3, the two instance columns holding 5. *)
Definition public_mismatch_table : Table :=
  mkTable (fun s r => andb (Nat.eqb s (q_flush holdem_config)) (Z.eqb r 0))
          (fun c r => if Nat.ltb c 5 then 3 else 0)
          (fun c r => 5).

(** Sample inputs: a table whose enabled selectors (on every row) are
    [qs]; an empty witness store; a backend that accepts every call. *)
Definition enabled_table (qs : list Selector) (adv : AdviceColumn -> Z -> Z) : Table :=
  mkTable (fun s _ => existsb (Nat.eqb s) qs) adv (fun _ _ => 0).

Definition empty_store : Store :=
  mkStore (fun _ _ => None) (fun _ _ => false) (fun _ _ => 0) [].

Definition accept_all : Store -> Z -> RegionOp -> option Error :=
  fun _ _ _ => None.

(** ** The circuit's witness side: [construct], [without_witnesses],
    [synthesize] *)

(** [VanillaHoldemChip<F>] (the [PhantomData] marker carries no data). *)
Record VanillaHoldemChip : Type := mkChip { chip_config : VanillaHoldemConfig }.

(** [VanillaHoldemChip::construct] *)
Definition construct (config : VanillaHoldemConfig) : VanillaHoldemChip :=
  mkChip config.

(** [VanillaHoldemCircuit<F>]: two private and three table card values. *)
Record VanillaHoldemCircuit : Type := mkCircuit {
  circuit_cards : Value * Value;
  circuit_table_cards : Value * Value * Value
}.

(** [#[derive(Default)]]: every [Value] defaults to [Value::unknown()]. *)
Definition circuit_default : VanillaHoldemCircuit :=
  mkCircuit (None, None) (None, None, None).

(** [Circuit::without_witnesses] is [Self::default()]. *)
Definition without_witnesses (c : VanillaHoldemCircuit) : VanillaHoldemCircuit :=
  circuit_default.

(** [Circuit::synthesize]: build the chip, [assign_card(..)?], [Ok(())].
    The namespace only names the region; the region lands at row [start]. *)
Definition synthesize (backend_reject : Store -> Z -> RegionOp -> option Error)
  (c : VanillaHoldemCircuit) (config : VanillaHoldemConfig) (start : Z) : RM unit :=
  let chip := construct config in
  rm_bind (assign_card backend_reject (chip_config chip) start
             (circuit_cards c) (circuit_table_cards c))
          (fun _ => rm_ret tt).

(** A backend that refuses, with error [e], an advice write to a cell that
    already holds a value, and accepts every other call. *)
Definition write_once_backend (e : Error) : Store -> Z -> RegionOp -> option Error :=
  fun st start op =>
    match op with
    | OpAssignAdvice col off _ =>
        match st_adv st col (start + Z.of_nat off) with
        | Some _ => Some e
        | None => None
        end
    | _ => None
    end.

(** The (column, offset) cell of an advice write, forgetting its value. *)
Definition op_cell (op : RegionOp) : option (AdviceColumn * nat) :=
  match op with
  | OpAssignAdvice col off _ => Some (col, off)
  | _ => None
  end.

(** ** Facts about the built schema *)

Lemma holdem_gates_eq :
  gates holdem_cs =
  [mkGate "straight" (straight_gate 1%nat [0; 1; 2; 3; 4]%nat);
   mkGate "flush" (flush_gate 0%nat [0; 1; 2; 3; 4]%nat);
   mkGate "one pair" (one_pair_gate 2 5)%nat;
   mkGate "two pair" (two_pair_gate 3 5)%nat;
   mkGate "three of a kind" (three_of_a_kind_gate 4 6)%nat;
   mkGate "four of a kind" (four_of_a_kind_gate 5 6)%nat;
   mkGate "full house" (full_house_gate 2 4 5 6)%nat].
Proof. vm_compute. reflexivity. Qed.

Lemma holdem_config_eq :
  holdem_config = (mkConfig 1 0 2 3 4 5 [0; 1; 2; 3; 4] [0; 1])%nat.
Proof. reflexivity. Qed.

Lemma holdem_aux_columns :
  holdem_num_of_pair = 5%nat /\ holdem_num_of_same_kind = 6%nat.
Proof. split; reflexivity. Qed.

Lemma poly_holds_gated p t r s a b :
  poly_holds p t r (e_mul (SelectorQ s) (e_sub a b)) =
  if t_sel t s r then Z.eqb ((eval t r a - eval t r b) mod p) 0 else true.
Proof.
  unfold poly_holds, e_mul, e_sub; cbn [eval].
  destruct (t_sel t s r).
  - rewrite Z.mul_1_l. reflexivity.
  - rewrite Z.mul_0_l, Zmod_0_l. reflexivity.
Qed.

(** A row's selector flags given as the list of enabled selectors. *)
Lemma sel_from_enabled t r qs
  (H : forall s, t_sel t s r = true <-> In s qs) s :
  t_sel t s r = existsb (Nat.eqb s) qs.
Proof.
  destruct (t_sel t s r) eqn:E; symmetry.
  - apply existsb_exists. exists s. split.
    + apply H. exact E.
    + apply Nat.eqb_refl.
  - apply not_true_iff_false. intro Hx.
    apply existsb_exists in Hx as [s' [Hin Heq]].
    apply Nat.eqb_eq in Heq. subst s'.
    apply H in Hin. congruence.
Qed.

Lemma sub_mod_zero p a b :
  (a - b) mod p = 0 <-> a mod p = b mod p.
Proof. symmetry. apply Z.cong_iff_0. Qed.

(** Expand [row_satisfied] on [holdem_cs] into its thirteen gated terms. *)
Ltac holdem_unfold :=
  unfold row_satisfied; rewrite holdem_gates_eq;
  cbn [forallb gate_polys straight_gate flush_gate one_pair_gate two_pair_gate
       three_of_a_kind_gate four_of_a_kind_gate full_house_gate map seq nth];
  rewrite !poly_holds_gated; cbn [eval]; unfold cur; rewrite ?Z.add_0_r.

(** Fix the selector flags from an "enabled selectors" hypothesis. *)
Ltac holdem_selectors H :=
  repeat rewrite (sel_from_enabled _ _ _ H);
  cbn [existsb Nat.eqb orb andb];
  rewrite ?andb_true_r, ?andb_true_iff, ?Z.eqb_eq, ?sub_mod_zero.

(** ** Gate semantics of the built schema *)

(** C1: under the straight selector alone, the row is satisfiable exactly
    when card columns 1..4 hold the field value 1; card 0 is unconstrained. *)
Theorem straight_row_satisfiable_iff p t r
  (Hsel : forall s, t_sel t s r = true <-> In s [q_straight holdem_config]) :
  row_satisfied p holdem_cs t r = true <->
  (forall i, (1 <= i <= 4)%nat ->
     t_adv t (nth i (cards holdem_config) O) r mod p = 1 mod p).
Proof.
  rewrite holdem_config_eq in *. cbn [q_straight cards] in *.
  holdem_unfold. holdem_selectors Hsel.
  split.
  - intros [H1 [H2 [H3 H4]]] i Hi.
    destruct i as [|[|[|[|[|i]]]]]; try lia; assumption.
  - intros H.
    refine (conj (H 1%nat _) (conj (H 2%nat _) (conj (H 3%nat _) (H 4%nat _))));
      lia.
Qed.

(** C2: under one counting selector alone, the row is satisfiable exactly
    when the auxiliary count equals the category's constant. *)
Theorem counting_row_satisfiable_iff c p t r
  (Hsel : forall s, t_sel t s r = true <->
                    In s [category_selector holdem_config c]) :
  row_satisfied p holdem_cs t r = true <->
  t_adv t (category_column c) r mod p = category_constant c mod p.
Proof.
  rewrite holdem_config_eq in *.
  destruct c; cbn [category_selector category_column category_constant
                   q_one_pair q_two_pair q_three_of_a_kind q_four_of_a_kind] in *;
    pose proof holdem_aux_columns as [Hnp Hnk]; rewrite ?Hnp, ?Hnk;
    holdem_unfold; holdem_selectors Hsel;
    intuition congruence.
Qed.

(** C3: under the flush selector alone, the row is satisfiable exactly when
    all five card values are equal. *)
Theorem flush_row_satisfiable_iff p t r
  (Hsel : forall s, t_sel t s r = true <-> In s [q_flush holdem_config]) :
  row_satisfied p holdem_cs t r = true <->
  (forall i j, (i < 5)%nat -> (j < 5)%nat ->
     t_adv t (nth i (cards holdem_config) O) r mod p =
     t_adv t (nth j (cards holdem_config) O) r mod p).
Proof.
  rewrite holdem_config_eq in *. cbn [q_flush cards] in *.
  holdem_unfold. holdem_selectors Hsel.
  split.
  - intros [H1 [H2 [H3 H4]]] i j Hi Hj.
    destruct i as [|[|[|[|[|i]]]]]; try lia;
      destruct j as [|[|[|[|[|j]]]]]; try lia; cbn [nth]; congruence.
  - intros H.
    refine (conj (H 0 1 _ _) (conj (H 1 2 _ _) (conj (H 2 3 _ _) (H 3 4 _ _))))%nat;
      lia.
Qed.

(** C4: with exactly the one-pair and three-of-a-kind selectors enabled
    (the full-house claim), the row is satisfiable exactly when
    [num_of_same_kind = 3] and [num_of_pair = 1]. *)
Theorem full_house_row_satisfiable_iff p t r
  (Hsel : forall s, t_sel t s r = true <->
                    In s [q_one_pair holdem_config; q_three_of_a_kind holdem_config]) :
  row_satisfied p holdem_cs t r = true <->
  t_adv t holdem_num_of_same_kind r mod p = 3 mod p /\
  t_adv t holdem_num_of_pair r mod p = 1 mod p.
Proof.
  rewrite holdem_config_eq in *. cbn [q_one_pair q_three_of_a_kind] in *.
  destruct holdem_aux_columns as [-> ->].
  holdem_unfold. holdem_selectors Hsel.
  split.
  - intros [H1 [H2 [H3 H4]]]. split; symmetry; assumption.
  - intros [H1 H2]. repeat split; symmetry; assumption.
Qed.

(** C6: every registered constraint is its selector times a polynomial; on
    a row with no selector enabled each one evaluates to 0, so the row is
    satisfied whatever the card and auxiliary cells hold. *)
Theorem no_selector_row_trivial t r
  (Hoff : forall s, t_sel t s r = false) :
  (forall g e, In g (gates holdem_cs) -> In e (gate_polys g) ->
     (exists s body, e = Product (SelectorQ s) body) /\ eval t r e = 0) /\
  (forall p, row_satisfied p holdem_cs t r = true).
Proof.
  assert (Hpoly : forall g e, In g (gates holdem_cs) -> In e (gate_polys g) ->
            (exists s body, e = Product (SelectorQ s) body) /\ eval t r e = 0).
  { intros g e Hg He. rewrite holdem_gates_eq in Hg.
    cbn [In] in Hg.
    repeat destruct Hg as [<- | Hg]; try contradiction;
      cbn [gate_polys straight_gate flush_gate one_pair_gate two_pair_gate
           three_of_a_kind_gate four_of_a_kind_gate full_house_gate
           map seq nth In] in He;
      repeat destruct He as [<- | He]; try contradiction;
      (split; [eexists _, _; reflexivity
              | unfold e_mul; cbn [eval]; rewrite Hoff; reflexivity]). }
  split; [exact Hpoly |].
  intros p. unfold row_satisfied.
  apply forallb_forall. intros g Hg.
  apply forallb_forall. intros e He.
  unfold poly_holds. rewrite (proj2 (Hpoly g e Hg He)). reflexivity.
Qed.

Lemma holdem_gates_split :
  gates holdem_cs =
  gates holdem_cs_no_full_house ++ [mkGate "full house" (full_house_gate 2 4 5 6)%nat].
Proof. vm_compute. reflexivity. Qed.

Lemma holdem_gates_no_full_house_eq :
  gates holdem_cs_no_full_house =
  [mkGate "straight" (straight_gate 1%nat [0; 1; 2; 3; 4]%nat);
   mkGate "flush" (flush_gate 0%nat [0; 1; 2; 3; 4]%nat);
   mkGate "one pair" (one_pair_gate 2 5)%nat;
   mkGate "two pair" (two_pair_gate 3 5)%nat;
   mkGate "three of a kind" (three_of_a_kind_gate 4 6)%nat;
   mkGate "four of a kind" (four_of_a_kind_gate 5 6)%nat].
Proof. vm_compute. reflexivity. Qed.

(** C10: the "full house" gate repeats the "three of a kind" and "one pair"
    constraints verbatim, so dropping it leaves satisfaction unchanged on
    every table, row and selector configuration. *)
Theorem full_house_gate_redundant :
  full_house_gate (q_one_pair holdem_config) (q_three_of_a_kind holdem_config)
    holdem_num_of_pair holdem_num_of_same_kind =
  three_of_a_kind_gate (q_three_of_a_kind holdem_config) holdem_num_of_same_kind ++
  one_pair_gate (q_one_pair holdem_config) holdem_num_of_pair /\
  (forall p t r,
     row_satisfied p holdem_cs t r = row_satisfied p holdem_cs_no_full_house t r).
Proof.
  split; [reflexivity |].
  intros p t r. unfold row_satisfied.
  rewrite holdem_gates_split, forallb_app, holdem_gates_no_full_house_eq.
  cbn [forallb gate_polys full_house_gate one_pair_gate three_of_a_kind_gate].
  set (b1 := poly_holds p t r (e_mul (SelectorQ 2%nat)
                                 (e_sub (Constant 1) (Advice 5%nat cur)))).
  set (b3 := poly_holds p t r (e_mul (SelectorQ 4%nat)
                                 (e_sub (Constant 3) (Advice 6%nat cur)))).
  destruct b1, b3; rewrite ?andb_true_r, ?andb_false_r, ?andb_false_l; reflexivity.
Qed.

(** ** Lemmas on region calls *)

Section BackendFacts.
Variable backend_reject : Store -> Z -> RegionOp -> option Error.

Lemma for_each_run_calls start (f : nat -> RegionOp) xs s :
  for_each xs (fun i => region_call backend_reject start (f i)) s =
  run_calls backend_reject start (map f xs) s.
Proof.
  revert s. induction xs as [|i xs IH]; intros s; [reflexivity |].
  cbn [for_each run_calls map]. unfold rm_bind.
  destruct (region_call backend_reject start (f i) s) as [[a|e] s']; auto.
Qed.

Lemma assign_card_run cfg start cv tv s :
  assign_card backend_reject cfg start cv tv s =
  run_calls backend_reject start (assign_card_ops cfg cv tv) s.
Proof.
  destruct cv as [c0 c1], tv as [[t0 t1] t2].
  unfold assign_card, assign_card_ops, assign_region, assign_advice.
  unfold rm_bind at 1.
  rewrite (for_each_run_calls start
             (fun i => OpAssignAdvice (nth i (cards cfg) O) 0
                         (nth i [c0; c1; t0; t1; t2] None))).
  destruct (run_calls backend_reject start _ s) as [[[]|e] s'] eqn:E; reflexivity.
Qed.

Lemma run_calls_ok start ops st st' log :
  backend_run backend_reject start st ops = Some st' ->
  run_calls backend_reject start ops (st, log) = (Ok tt, (st', log ++ ops)).
Proof.
  revert st log. induction ops as [|op ops IH]; intros st log H.
  - cbn in H. inversion H; subst. rewrite app_nil_r. reflexivity.
  - cbn in H |- *. unfold rm_bind, region_call.
    destruct (backend_reject st start op) as [e|] eqn:E; [discriminate |].
    rewrite (IH _ _ H), <- app_assoc. reflexivity.
Qed.

Lemma run_calls_err start ops st log e :
  fst (run_calls backend_reject start ops (st, log)) = Err e <->
  exists pre op post st',
    ops = pre ++ op :: post /\
    backend_run backend_reject start st pre = Some st' /\
    backend_reject st' start op = Some e.
Proof.
  revert st log. induction ops as [|op ops IH]; intros st log.
  - cbn. split; [discriminate |].
    intros [pre [op [post [st' [Heq _]]]]]. destruct pre; discriminate.
  - cbn [run_calls]. unfold rm_bind, region_call.
    destruct (backend_reject st start op) as [e'|] eqn:E.
    + cbn [fst]. split.
      * intros H. inversion H; subst.
        exists [], op, ops, st. repeat split; assumption.
      * intros [pre [op' [post [st' [Heq [Hrun Hrej]]]]]].
        destruct pre as [|o pre]; cbn in Heq, Hrun.
        -- inversion Heq; inversion Hrun; subst. congruence.
        -- inversion Heq; subst. rewrite E in Hrun. discriminate.
    + rewrite IH. split.
      * intros [pre [op' [post [st' [Heq [Hrun Hrej]]]]]].
        exists (op :: pre), op', post, st'. subst ops.
        cbn. rewrite E. repeat split; assumption.
      * intros [pre [op' [post [st' [Heq [Hrun Hrej]]]]]].
        destruct pre as [|o pre]; cbn in Heq, Hrun.
        -- inversion Heq; inversion Hrun; subst. congruence.
        -- inversion Heq; subst. rewrite E in Hrun.
           exists pre, op', post, st'. repeat split; assumption.
Qed.

Lemma run_calls_ok_iff start ops st log :
  fst (run_calls backend_reject start ops (st, log)) = Ok tt <->
  backend_run backend_reject start st ops <> None.
Proof.
  revert st log. induction ops as [|op ops IH]; intros st log.
  - cbn. split; [discriminate | reflexivity].
  - cbn [run_calls backend_run]. unfold rm_bind, region_call.
    destruct (backend_reject st start op) as [e'|] eqn:E.
    + cbn. split; [discriminate | congruence].
    + apply IH.
Qed.

(** Whatever the outcome, the store only goes through accepted calls of
    [ops] and the log grows by calls of [ops]. *)
Lemma run_calls_frame (P : Store -> Prop) start ops st log :
  (forall op st0, In op ops -> P st0 -> P (apply_op start op st0)) ->
  P st ->
  P (fst (snd (run_calls backend_reject start ops (st, log)))) /\
  exists pre, snd (snd (run_calls backend_reject start ops (st, log))) = log ++ pre /\
              (forall op, In op pre -> In op ops).
Proof.
  revert st log. induction ops as [|op ops IH]; intros st log Hstep Hst.
  - cbn. split; [exact Hst |]. exists []. rewrite app_nil_r. split; auto.
  - cbn [run_calls]. unfold rm_bind, region_call.
    destruct (backend_reject st start op) as [e'|] eqn:E.
    + cbn. split; [exact Hst |]. exists [op]. split; [reflexivity |].
      intros o [<- | []]. left. reflexivity.
    + destruct (IH (apply_op start op st) (log ++ [op])) as [HP [pre [Hlog Hin]]].
      * intros o st0 Ho. apply Hstep. right. exact Ho.
      * apply Hstep; [left; reflexivity | exact Hst].
      * split; [exact HP |]. exists (op :: pre).
        rewrite Hlog, <- app_assoc. split; [reflexivity |].
        intros o [<- | Ho]; [left; reflexivity | right; apply Hin; exact Ho].
Qed.

End BackendFacts.

Lemma backend_run_some backend_reject start ops st st' :
  backend_run backend_reject start st ops = Some st' ->
  st' = fold_left (fun s op => apply_op start op s) ops st.
Proof.
  revert st. induction ops as [|op ops IH]; intros st H; cbn in H |- *.
  - congruence.
  - destruct (backend_reject st start op); [discriminate | auto].
Qed.

Lemma assign_card_ops_eq cfg c0 c1 t0 t1 t2 :
  assign_card_ops cfg (c0, c1) (t0, t1, t2) =
  [OpAssignAdvice (nth 0 (cards cfg) O) 0 c0;
   OpAssignAdvice (nth 1 (cards cfg) O) 0 c1;
   OpAssignAdvice (nth 2 (cards cfg) O) 0 t0;
   OpAssignAdvice (nth 3 (cards cfg) O) 0 t1;
   OpAssignAdvice (nth 4 (cards cfg) O) 0 t2].
Proof. reflexivity. Qed.

(** Frame of [assign_card] on the holdem config: only card-column advice
    writes are issued, and nothing else in the store moves. *)
Lemma assign_card_frame_aux backend_reject start cv tv st log :
  let res := assign_card backend_reject holdem_config start cv tv (st, log) in
  (exists new, snd (snd res) = log ++ new /\
     forall op, In op new -> exists i v, (i < 5)%nat /\
       op = OpAssignAdvice (nth i (cards holdem_config) O) 0 v) /\
  st_sel (fst (snd res)) = st_sel st /\
  st_inst (fst (snd res)) = st_inst st /\
  st_copies (fst (snd res)) = st_copies st /\
  (forall c row, ~ In c (cards holdem_config) ->
     st_adv (fst (snd res)) c row = st_adv st c row).
Proof.
  cbv zeta. rewrite assign_card_run.
  destruct cv as [c0 c1], tv as [[t0 t1] t2].
  assert (Hops : forall op, In op (assign_card_ops holdem_config (c0, c1) (t0, t1, t2)) ->
            exists i v, (i < 5)%nat /\
              op = OpAssignAdvice (nth i (cards holdem_config) O) 0 v).
  { intros op Hop. rewrite assign_card_ops_eq in Hop.
    cbn [In] in Hop.
    destruct Hop as [<- | [<- | [<- | [<- | [<- | []]]]]];
      refine (ex_intro _ _ (ex_intro _ _ (conj _ eq_refl))); lia. }
  destruct (run_calls_frame backend_reject
              (fun s => st_sel s = st_sel st /\ st_inst s = st_inst st /\
                        st_copies s = st_copies st /\
                        forall c row, ~ In c (cards holdem_config) ->
                                      st_adv s c row = st_adv st c row)
              start (assign_card_ops holdem_config (c0, c1) (t0, t1, t2)) st log)
    as [[Hs [Hi [Hc Ha]]] [pre [Hlog Hin]]].
  - intros op st0 Hop [Hs [Hi [Hc Ha]]].
    destruct (Hops op Hop) as [i [v [Hlt ->]]].
    cbn [apply_op st_sel st_inst st_copies st_adv].
    repeat split; try assumption.
    intros c row Hc'.
    destruct (Nat.eqb c (nth i (cards holdem_config) O)) eqn:Ec.
    + apply Nat.eqb_eq in Ec. subst c. exfalso. apply Hc'.
      apply nth_In. rewrite holdem_config_eq. cbn. exact Hlt.
    + cbn [andb]. apply Ha. exact Hc'.
  - repeat split; reflexivity || (intros; reflexivity).
  - split.
    + exists pre. split; [exact Hlog |]. intros op Hop. apply Hops, Hin, Hop.
    + repeat split; assumption.
Qed.

(** C7: when the backend accepts the five writes, [assign_card] succeeds,
    having issued exactly the writes [private[0]], [private[1]],
    [public[0]], [public[1]], [public[2]] to card columns 0..4 at offset 0,
    and those five cells of the region's row hold the given values. *)
Theorem assign_card_writes_five_cells backend_reject start c0 c1 t0 t1 t2 st log
  (Hacc : backend_run backend_reject start st
            (assign_card_ops holdem_config (c0, c1) (t0, t1, t2)) <> None) :
  let '(res, (st', log')) :=
    assign_card backend_reject holdem_config start (c0, c1) (t0, t1, t2) (st, log) in
  res = Ok tt /\
  log' = log ++ [OpAssignAdvice (nth 0 (cards holdem_config) O) 0 c0;
                 OpAssignAdvice (nth 1 (cards holdem_config) O) 0 c1;
                 OpAssignAdvice (nth 2 (cards holdem_config) O) 0 t0;
                 OpAssignAdvice (nth 3 (cards holdem_config) O) 0 t1;
                 OpAssignAdvice (nth 4 (cards holdem_config) O) 0 t2] /\
  (forall i, (i < 5)%nat ->
     st_adv st' (nth i (cards holdem_config) O) start =
     Some (nth i [c0; c1; t0; t1; t2] None)).
Proof.
  rewrite assign_card_run.
  destruct (backend_run backend_reject start st
              (assign_card_ops holdem_config (c0, c1) (t0, t1, t2))) as [st'|] eqn:E;
    [| contradiction].
  rewrite (run_calls_ok backend_reject start _ st st' log E).
  pose proof (backend_run_some _ _ _ _ _ E) as ->.
  split; [reflexivity |]. split; [reflexivity |].
  intros i Hi. rewrite holdem_config_eq.
  destruct i as [|[|[|[|[|i]]]]]; try lia;
    cbn [assign_card_ops cards nth seq combine map fold_left apply_op st_adv
         Nat.eqb andb Z.of_nat];
    rewrite Z.add_0_r, Z.eqb_refl; reflexivity.
Qed.

(** C8: [assign_card] fails exactly when the backend rejects one of the
    five writes (after accepting the earlier ones), with that very error,
    and succeeds exactly when the backend accepts all five, whatever the
    five values are. *)
Theorem assign_card_fails_iff_backend backend_reject start cv tv st log :
  (forall e,
     fst (assign_card backend_reject holdem_config start cv tv (st, log)) = Err e <->
     exists pre op post st',
       assign_card_ops holdem_config cv tv = pre ++ op :: post /\
       backend_run backend_reject start st pre = Some st' /\
       backend_reject st' start op = Some e) /\
  (fst (assign_card backend_reject holdem_config start cv tv (st, log)) = Ok tt <->
   backend_run backend_reject start st (assign_card_ops holdem_config cv tv) <> None).
Proof.
  rewrite assign_card_run. split.
  - intros e. apply run_calls_err.
  - apply run_calls_ok_iff.
Qed.

(** C9: [assign_card] only issues advice writes to the five card columns;
    selector flags, instance cells, copy constraints and every other advice
    column (among them [num_of_pair] and [num_of_same_kind]) are left as
    they were, whether or not the backend accepts the writes. *)
Theorem assign_card_frame backend_reject start cv tv st log :
  let '(_, (st', log')) :=
    assign_card backend_reject holdem_config start cv tv (st, log) in
  (exists new, log' = log ++ new /\
     forall op, In op new -> exists i v, (i < 5)%nat /\
       op = OpAssignAdvice (nth i (cards holdem_config) O) 0 v) /\
  st_sel st' = st_sel st /\
  st_inst st' = st_inst st /\
  st_copies st' = st_copies st /\
  (forall row, st_adv st' holdem_num_of_pair row = st_adv st holdem_num_of_pair row /\
               st_adv st' holdem_num_of_same_kind row =
               st_adv st holdem_num_of_same_kind row).
Proof.
  pose proof (assign_card_frame_aux backend_reject start cv tv st log)
    as [Hlog [Hs [Hi [Hc Ha]]]].
  destruct (assign_card backend_reject holdem_config start cv tv (st, log))
    as [res [st' log']].
  cbn [fst snd] in *.
  destruct holdem_aux_columns as [-> ->].
  repeat split; try assumption; apply Ha; rewrite holdem_config_eq;
    cbn [cards In]; intuition discriminate.
Qed.

Lemma eval_no_instance t inst' r e :
  refs_instance e = false ->
  eval t r e = eval (mkTable (t_sel t) (t_adv t) inst') r e.
Proof.
  induction e; cbn [refs_instance eval]; intros H; try reflexivity;
    try discriminate;
    try (apply orb_false_iff in H as [Ha Hb]);
    rewrite ?IHe, ?IHe1, ?IHe2 by assumption; reflexivity.
Qed.

Lemma holdem_gates_no_instance g e :
  In g (gates holdem_cs) -> In e (gate_polys g) -> refs_instance e = false.
Proof.
  intros Hg He. rewrite holdem_gates_eq in Hg. cbn [In] in Hg.
  repeat destruct Hg as [<- | Hg]; try contradiction;
    cbn [gate_polys straight_gate flush_gate one_pair_gate two_pair_gate
         three_of_a_kind_gate four_of_a_kind_gate full_house_gate
         map seq nth In] in He;
    repeat destruct He as [<- | He]; try contradiction; reflexivity.
Qed.

Lemma forallb_ext_in {A} (f g : A -> bool) (l : list A) :
  (forall x, In x l -> f x = g x) -> forallb f l = forallb g l.
Proof.
  induction l as [|x l IH]; intros H; cbn; [reflexivity |].
  rewrite (H x (or_introl eq_refl)), IH; [reflexivity |].
  intros y Hy. apply H. right. exact Hy.
Qed.

Lemma holdem_no_permutation : permutation_columns holdem_cs = [].
Proof. reflexivity. Qed.

(** C5 (counterexample): nothing ties the instance columns to the cards.
    No gate queries them, no column is enabled for equality, [assign_card]
    issues only advice writes and leaves the store's public inputs alone,
    and a row whose public inputs differ from every card is satisfied. *)
Lemma instance_columns_bind_cards_cex :
  (forall g e, In g (gates holdem_cs) -> In e (gate_polys g) ->
     refs_instance e = false) /\
  permutation_columns holdem_cs = [] /\
  (forall backend_reject start cv tv st log,
     st_inst (fst (snd (assign_card backend_reject holdem_config start cv tv
                          (st, log)))) = st_inst st) /\
  (forall i j, (i < 5)%nat -> (j < 2)%nat ->
     t_adv public_mismatch_table (nth i (cards holdem_config) O) 0 <>
     t_inst public_mismatch_table (nth j (table_cards holdem_config) O) 0) /\
  row_satisfied 7 holdem_cs public_mismatch_table 0 = true.
Proof.
  split; [exact holdem_gates_no_instance |].
  split; [exact holdem_no_permutation |].
  split.
  - intros. apply (assign_card_frame_aux backend_reject start cv tv st log).
  - split; [| vm_compute; reflexivity].
    intros i j Hi Hj. rewrite holdem_config_eq.
    destruct i as [|[|[|[|[|i]]]]]; try lia;
      destruct j as [|[|j]]; try lia; cbn; discriminate.
Qed.

(** C5 (amended): the two instance columns [table_cards] are allocated and
    kept in the config, but the constraint system never constrains them:
    no gate queries an instance column, no column is enabled for equality,
    so satisfaction of a row does not depend on the public inputs; and
    [assign_card] writes only the card advice columns and leaves the public
    inputs as they were. *)
Theorem instance_columns_unconstrained :
  List.length (table_cards holdem_config) = 2%nat /\
  permutation_columns holdem_cs = [] /\
  (forall g e, In g (gates holdem_cs) -> In e (gate_polys g) ->
     refs_instance e = false) /\
  (forall p t r inst',
     row_satisfied p holdem_cs t r =
     row_satisfied p holdem_cs (mkTable (t_sel t) (t_adv t) inst') r) /\
  (forall backend_reject start cv tv st log,
     let res := assign_card backend_reject holdem_config start cv tv (st, log) in
     st_inst (fst (snd res)) = st_inst st /\
     exists new, snd (snd res) = log ++ new /\
       forall op, In op new -> exists i v, (i < 5)%nat /\
         op = OpAssignAdvice (nth i (cards holdem_config) O) 0 v).
Proof.
  split; [reflexivity |].
  split; [exact holdem_no_permutation |].
  split; [exact holdem_gates_no_instance |].
  split.
  - intros p t r inst'. unfold row_satisfied.
    apply forallb_ext_in. intros g Hg.
    apply forallb_ext_in. intros e He.
    unfold poly_holds. rewrite <- eval_no_instance; [reflexivity |].
    exact (holdem_gates_no_instance g e Hg He).
  - intros backend_reject start cv tv st log. cbv zeta.
    pose proof (assign_card_frame_aux backend_reject start cv tv st log)
      as [Hlog [_ [Hi _]]].
    split; assumption.
Qed.

(** ** Witnesses at concrete inputs (field characteristic 7, row 0) *)

Ltac enabled_hyp :=
  intros s; unfold enabled_table; cbn [t_sel];
  rewrite holdem_config_eq;
  cbn [q_straight q_flush q_one_pair q_two_pair q_three_of_a_kind
       q_four_of_a_kind category_selector];
  destruct s as [|[|[|[|[|[|s]]]]]]; cbn; intuition (discriminate || lia).

Lemma straight_row_satisfiable_iff_witness :
  let t := enabled_table [1%nat] (fun c _ => if Nat.eqb c 0 then 9 else 1) in
  (forall s, t_sel t s 0 = true <-> In s [q_straight holdem_config]) /\
  (row_satisfied 7 holdem_cs t 0 = true <->
   (forall i, (1 <= i <= 4)%nat ->
      t_adv t (nth i (cards holdem_config) O) 0 mod 7 = 1 mod 7)).
Proof.
  cbv zeta.
  assert (H : forall s, t_sel (enabled_table [1%nat]
                 (fun c _ => if Nat.eqb c 0 then 9 else 1)) s 0 = true <->
                        In s [q_straight holdem_config]) by enabled_hyp.
  split; [exact H | exact (straight_row_satisfiable_iff 7 _ 0 H)].
Defined.

Lemma counting_row_satisfiable_iff_witness :
  let t := enabled_table [3%nat] (fun c _ => if Nat.eqb c 5 then 2 else 0) in
  (forall s, t_sel t s 0 = true <-> In s [category_selector holdem_config TwoPair]) /\
  (row_satisfied 7 holdem_cs t 0 = true <->
   t_adv t (category_column TwoPair) 0 mod 7 = category_constant TwoPair mod 7).
Proof.
  cbv zeta.
  assert (H : forall s, t_sel (enabled_table [3%nat]
                 (fun c _ => if Nat.eqb c 5 then 2 else 0)) s 0 = true <->
                        In s [category_selector holdem_config TwoPair]) by enabled_hyp.
  split; [exact H | exact (counting_row_satisfiable_iff TwoPair 7 _ 0 H)].
Defined.

Lemma flush_row_satisfiable_iff_witness :
  let t := enabled_table [0%nat] (fun _ _ => 4) in
  (forall s, t_sel t s 0 = true <-> In s [q_flush holdem_config]) /\
  (row_satisfied 7 holdem_cs t 0 = true <->
   (forall i j, (i < 5)%nat -> (j < 5)%nat ->
      t_adv t (nth i (cards holdem_config) O) 0 mod 7 =
      t_adv t (nth j (cards holdem_config) O) 0 mod 7)).
Proof.
  cbv zeta.
  assert (H : forall s, t_sel (enabled_table [0%nat] (fun _ _ => 4)) s 0 = true <->
                        In s [q_flush holdem_config]) by enabled_hyp.
  split; [exact H | exact (flush_row_satisfiable_iff 7 _ 0 H)].
Defined.

Lemma full_house_row_satisfiable_iff_witness :
  let t := enabled_table [2%nat; 4%nat]
             (fun c _ => if Nat.eqb c 5 then 1 else if Nat.eqb c 6 then 3 else 0) in
  (forall s, t_sel t s 0 = true <->
             In s [q_one_pair holdem_config; q_three_of_a_kind holdem_config]) /\
  (row_satisfied 7 holdem_cs t 0 = true <->
   t_adv t holdem_num_of_same_kind 0 mod 7 = 3 mod 7 /\
   t_adv t holdem_num_of_pair 0 mod 7 = 1 mod 7).
Proof.
  cbv zeta.
  assert (H : forall s, t_sel (enabled_table [2%nat; 4%nat]
                 (fun c _ => if Nat.eqb c 5 then 1 else if Nat.eqb c 6 then 3 else 0))
                 s 0 = true <->
               In s [q_one_pair holdem_config; q_three_of_a_kind holdem_config])
    by enabled_hyp.
  split; [exact H | exact (full_house_row_satisfiable_iff 7 _ 0 H)].
Defined.

Lemma no_selector_row_trivial_witness :
  let t := enabled_table [] (fun c _ => Z.of_nat c) in
  (forall s, t_sel t s 0 = false) /\
  (forall p, row_satisfied p holdem_cs t 0 = true).
Proof.
  cbv zeta.
  assert (H : forall s, t_sel (enabled_table [] (fun c _ => Z.of_nat c)) s 0 = false)
    by (intros s; reflexivity).
  split; [exact H | exact (proj2 (no_selector_row_trivial _ 0 H))].
Defined.

Lemma assign_card_writes_five_cells_witness :
  backend_run accept_all 0 empty_store
    (assign_card_ops holdem_config (Some (ATrivial 3), Some (ATrivial 3))
       (Some (ATrivial 7), None, Some AZero)) <> None /\
  let '(res, (st', log')) :=
    assign_card accept_all holdem_config 0 (Some (ATrivial 3), Some (ATrivial 3))
      (Some (ATrivial 7), None, Some AZero) (empty_store, []) in
  res = Ok tt /\
  log' = [] ++ [OpAssignAdvice (nth 0 (cards holdem_config) O) 0 (Some (ATrivial 3));
                OpAssignAdvice (nth 1 (cards holdem_config) O) 0 (Some (ATrivial 3));
                OpAssignAdvice (nth 2 (cards holdem_config) O) 0 (Some (ATrivial 7));
                OpAssignAdvice (nth 3 (cards holdem_config) O) 0 None;
                OpAssignAdvice (nth 4 (cards holdem_config) O) 0 (Some AZero)] /\
  (forall i, (i < 5)%nat ->
     st_adv st' (nth i (cards holdem_config) O) 0 =
     Some (nth i [Some (ATrivial 3); Some (ATrivial 3); Some (ATrivial 7);
                  None; Some AZero] None)).
Proof.
  assert (H : backend_run accept_all 0 empty_store
                (assign_card_ops holdem_config (Some (ATrivial 3), Some (ATrivial 3))
                   (Some (ATrivial 7), None, Some AZero)) <> None)
    by (vm_compute; discriminate).
  split; [exact H | exact (assign_card_writes_five_cells accept_all 0 _ _ _ _ _ _ _ H)].
Defined.

(** ** Further properties of the schema and of witness generation *)


Lemma circuit_configure_locals_eq ns na ni gs pc :
  circuit_configure_locals (mkCS ns na ni gs pc) =
  ((mkConfig (S ns) ns (S (S ns)) (S (S (S ns))) (S (S (S (S ns))))
      (S (S (S (S (S ns)))))
      [na; S na; S (S na); S (S (S na)); S (S (S (S na)))] [ni; S ni],
    S (S (S (S (S na)))), S (S (S (S (S (S na)))))),
   mkCS (S (S (S (S (S (S ns)))))) (S (S (S (S (S (S (S na))))))) (S (S ni))
     (((((((gs
       ++ [mkGate "straight"
             (straight_gate (S ns) [na; S na; S (S na); S (S (S na)); S (S (S (S na)))])])
       ++ [mkGate "flush"
             (flush_gate ns [na; S na; S (S na); S (S (S na)); S (S (S (S na)))])])
       ++ [mkGate "one pair" (one_pair_gate (S (S ns)) (S (S (S (S (S na))))))])
       ++ [mkGate "two pair" (two_pair_gate (S (S (S ns))) (S (S (S (S (S na))))))])
       ++ [mkGate "three of a kind"
             (three_of_a_kind_gate (S (S (S (S ns)))) (S (S (S (S (S (S na)))))))])
       ++ [mkGate "four of a kind"
             (four_of_a_kind_gate (S (S (S (S (S ns))))) (S (S (S (S (S (S na)))))))])
       ++ [mkGate "full house"
             (full_house_gate (S (S ns)) (S (S (S (S ns))))
                (S (S (S (S (S na))))) (S (S (S (S (S (S na)))))))]) pc).
Proof. vm_compute. reflexivity. Qed.

(** [VanillaHoldemCircuit::configure] on any builder state allocates six
    fresh, distinct selectors, seven fresh, distinct advice columns (five
    card columns, [num_of_pair], [num_of_same_kind]) and two fresh, distinct
    instance columns, appends seven gates and enables no equality. *)
Theorem circuit_configure_fresh_handles cs :
  let '((cfg, np, nk), cs') := circuit_configure_locals cs in
  num_selectors cs' = (num_selectors cs + 6)%nat /\
  num_advice_columns cs' = (num_advice_columns cs + 7)%nat /\
  num_instance_columns cs' = (num_instance_columns cs + 2)%nat /\
  permutation_columns cs' = permutation_columns cs /\
  List.length (gates cs') = (List.length (gates cs) + 7)%nat /\
  firstn (List.length (gates cs)) (gates cs') = gates cs /\
  let sels := [q_straight cfg; q_flush cfg; q_one_pair cfg; q_two_pair cfg;
               q_three_of_a_kind cfg; q_four_of_a_kind cfg] in
  let advs := cards cfg ++ [np; nk] in
  NoDup sels /\ Forall (fun s => num_selectors cs <= s < num_selectors cs')%nat sels /\
  NoDup advs /\
  Forall (fun c => num_advice_columns cs <= c < num_advice_columns cs')%nat advs /\
  NoDup (table_cards cfg) /\
  Forall (fun c => num_instance_columns cs <= c < num_instance_columns cs')%nat
    (table_cards cfg).
Proof.
  destruct cs as [ns na ni gs pc].
  rewrite circuit_configure_locals_eq.
  cbn [num_selectors num_advice_columns num_instance_columns gates
       permutation_columns q_straight q_flush q_one_pair q_two_pair
       q_three_of_a_kind q_four_of_a_kind cards table_cards app].
  rewrite <- !app_assoc, length_app, firstn_app, Nat.sub_diag, firstn_all.
  cbn [List.length firstn app]. rewrite app_nil_r.
  repeat split; try lia;
    repeat (constructor; [cbn; intuition lia |]); constructor.
Qed.

(** Every query of the schema is at [Rotation::cur()] and stays within the
    six selectors and seven advice columns: whether row [r] is satisfied
    depends only on those cells of row [r]. *)
Theorem row_satisfied_local p t t' r
  (Hsel : forall s, (s < 6)%nat -> t_sel t s r = t_sel t' s r)
  (Hadv : forall c, (c < 7)%nat -> t_adv t c r = t_adv t' c r) :
  row_satisfied p holdem_cs t r = row_satisfied p holdem_cs t' r.
Proof.
  holdem_unfold.
  repeat (rewrite Hsel by lia). repeat (rewrite Hadv by lia).
  reflexivity.
Qed.

(** With neither the straight nor the flush selector on at row [r], no gate
    reads the card columns there: the five card cells can be changed
    arbitrarily without affecting satisfaction (the counting gates only
    check the caller-supplied counts). *)
Theorem cards_unconstrained_by_counting_gates p t t' r
  (Hst : t_sel t (q_straight holdem_config) r = false)
  (Hfl : t_sel t (q_flush holdem_config) r = false)
  (Hsel : t_sel t' = t_sel t)
  (Hadv : forall c row, ~ In c (cards holdem_config) -> t_adv t' c row = t_adv t c row) :
  row_satisfied p holdem_cs t' r = row_satisfied p holdem_cs t r.
Proof.
  rewrite holdem_config_eq in *. cbn [q_straight q_flush cards] in *.
  holdem_unfold. rewrite Hsel, Hst, Hfl.
  rewrite (Hadv 5%nat r), (Hadv 6%nat r) by (cbn; intuition discriminate).
  reflexivity.
Qed.

(** With exactly the straight and flush selectors on, the row is
    satisfiable exactly when all five cards hold the field value 1. *)
Theorem straight_flush_row_satisfiable_iff p t r
  (Hsel : forall s, t_sel t s r = true <->
                    In s [q_straight holdem_config; q_flush holdem_config]) :
  row_satisfied p holdem_cs t r = true <->
  (forall i, (i < 5)%nat ->
     t_adv t (nth i (cards holdem_config) O) r mod p = 1 mod p).
Proof.
  rewrite holdem_config_eq in *. cbn [q_straight q_flush cards] in *.
  holdem_unfold. holdem_selectors Hsel.
  split.
  - intros [[H1 [H2 [H3 H4]]] [F1 [F2 [F3 F4]]]] i Hi.
    destruct i as [|[|[|[|[|i]]]]]; try lia; cbn [nth]; congruence.
  - intros H.
    pose proof (H 0%nat ltac:(lia)) as H0; pose proof (H 1%nat ltac:(lia)) as H1;
    pose proof (H 2%nat ltac:(lia)) as H2; pose proof (H 3%nat ltac:(lia)) as H3;
    pose proof (H 4%nat ltac:(lia)) as H4; cbn [nth] in *.
    repeat split; congruence.
Qed.

Lemma row_satisfied_poly p cs t r g e :
  row_satisfied p cs t r = true -> In g (gates cs) -> In e (gate_polys g) ->
  poly_holds p t r e = true.
Proof.
  unfold row_satisfied. intros H Hg He.
  rewrite forallb_forall in H. specialize (H g Hg).
  rewrite forallb_forall in H. exact (H e He).
Qed.

Ltac in_list := cbn [In]; repeat (first [left; reflexivity | right]).

Lemma mod_succ_distinct p a :
  1 < p -> a mod p <> (a + 1) mod p.
Proof.
  intros Hp Heq. symmetry in Heq. apply Z.cong_iff_0 in Heq.
  replace (a + 1 - a) with 1 in Heq by lia.
  rewrite Z.mod_small in Heq; lia.
Qed.

(** In a field of characteristic above 1, a row enabling both pair
    selectors, or both same-kind selectors, is never satisfiable: one
    auxiliary cell cannot equal two different constants. *)
Theorem conflicting_count_selectors_unsat p t r (Hp : 1 < p)
  (Hconf : (t_sel t (q_one_pair holdem_config) r = true /\
            t_sel t (q_two_pair holdem_config) r = true) \/
           (t_sel t (q_three_of_a_kind holdem_config) r = true /\
            t_sel t (q_four_of_a_kind holdem_config) r = true)) :
  row_satisfied p holdem_cs t r = false.
Proof.
  apply not_true_iff_false. intros H.
  rewrite holdem_config_eq in Hconf.
  cbn [q_one_pair q_two_pair q_three_of_a_kind q_four_of_a_kind] in Hconf.
  destruct Hconf as [[Ha Hb] | [Ha Hb]].
  - pose proof (row_satisfied_poly _ _ _ _ (mkGate "one pair" (one_pair_gate 2 5)%nat)
                  (e_mul (SelectorQ 2%nat) (e_sub (Constant 1) (Advice 5%nat cur))) H) as P1.
    pose proof (row_satisfied_poly _ _ _ _ (mkGate "two pair" (two_pair_gate 3 5)%nat)
                  (e_mul (SelectorQ 3%nat) (e_sub (Constant 2) (Advice 5%nat cur))) H) as P2.
    rewrite holdem_gates_eq in P1, P2.
    specialize (P1 ltac:(in_list) ltac:(in_list)).
    specialize (P2 ltac:(in_list) ltac:(in_list)).
    rewrite poly_holds_gated, Ha, Z.eqb_eq, sub_mod_zero in P1.
    rewrite poly_holds_gated, Hb, Z.eqb_eq, sub_mod_zero in P2.
    cbn [eval] in P1, P2.
    apply (mod_succ_distinct p 1 Hp). change (1 + 1) with 2. congruence.
  - pose proof (row_satisfied_poly _ _ _ _ (mkGate "three of a kind" (three_of_a_kind_gate 4 6)%nat)
                  (e_mul (SelectorQ 4%nat) (e_sub (Constant 3) (Advice 6%nat cur))) H) as P1.
    pose proof (row_satisfied_poly _ _ _ _ (mkGate "four of a kind" (four_of_a_kind_gate 5 6)%nat)
                  (e_mul (SelectorQ 5%nat) (e_sub (Constant 4) (Advice 6%nat cur))) H) as P2.
    rewrite holdem_gates_eq in P1, P2.
    specialize (P1 ltac:(in_list) ltac:(in_list)).
    specialize (P2 ltac:(in_list) ltac:(in_list)).
    rewrite poly_holds_gated, Ha, Z.eqb_eq, sub_mod_zero in P1.
    rewrite poly_holds_gated, Hb, Z.eqb_eq, sub_mod_zero in P2.
    cbn [eval] in P1, P2.
    apply (mod_succ_distinct p 3 Hp). change (3 + 1) with 4. congruence.
Qed.

Lemma synthesize_run backend_reject c cfg start s :
  synthesize backend_reject c cfg start s =
  assign_card backend_reject cfg start (circuit_cards c) (circuit_table_cards c) s.
Proof.
  unfold synthesize, construct. cbn [chip_config]. unfold rm_bind at 1.
  destruct (assign_card _ _ _ _ _ s) as [[[]|e] s']; reflexivity.
Qed.

Lemma backend_run_accepting backend_reject start st ops
  (Hacc : forall st0 s op, backend_reject st0 s op = None) :
  backend_run backend_reject start st ops =
  Some (fold_left (fun s op => apply_op start op s) ops st).
Proof.
  revert st. induction ops as [|op ops IH]; intros st; cbn; [reflexivity |].
  rewrite Hacc. apply IH.
Qed.

(** On a backend that accepts every call, [synthesize] on a circuit and on
    its [without_witnesses()] copy both succeed and write the same cells in
    the same order; the latter leaves [Value::unknown()] in each of the five
    card cells of the region's row. *)
Theorem synthesize_layout_independent_of_witness backend_reject
  (Hacc : forall st0 s op, backend_reject st0 s op = None) c start st log :
  let '(res1, (_, log1)) := synthesize backend_reject c holdem_config start (st, log) in
  let '(res2, (st2, log2)) :=
    synthesize backend_reject (without_witnesses c) holdem_config start (st, log) in
  res1 = Ok tt /\ res2 = Ok tt /\ map op_cell log1 = map op_cell log2 /\
  (forall i, (i < 5)%nat ->
     st_adv st2 (nth i (cards holdem_config) O) start = Some None).
Proof.
  destruct c as [[c0 c1] [[t0 t1] t2]].
  rewrite !synthesize_run.
  cbn [without_witnesses circuit_default circuit_cards circuit_table_cards].
  rewrite !assign_card_run,
    !(run_calls_ok backend_reject start _ st _ log
        (backend_run_accepting backend_reject start st _ Hacc)).
  split; [reflexivity |]. split; [reflexivity |].
  split; [rewrite !map_app; reflexivity |].
  intros i Hi. rewrite holdem_config_eq.
  destruct i as [|[|[|[|[|i]]]]]; try lia;
    cbn [assign_card_ops cards nth seq combine map fold_left apply_op st_adv
         Nat.eqb andb Z.of_nat];
    rewrite Z.add_0_r, Z.eqb_refl; reflexivity.
Qed.

(** On a write-once backend (an advice cell that already holds a value is
    refused with error [e]), a first [assign_card] into free card cells
    succeeds, and repeating it at the same region start fails with [e] at
    its very first write, leaving the store untouched. *)
Theorem assign_card_twice_rejected e start c0 c1 t0 t1 t2 st log
  (Hfree : forall i, (i < 5)%nat ->
             st_adv st (nth i (cards holdem_config) O) start = None) :
  let '(res1, (st1, log1)) :=
    assign_card (write_once_backend e) holdem_config start (c0, c1) (t0, t1, t2)
      (st, log) in
  res1 = Ok tt /\
  let '(res2, (st2, log2)) :=
    assign_card (write_once_backend e) holdem_config start (c0, c1) (t0, t1, t2)
      (st1, log1) in
  res2 = Err e /\ st2 = st1 /\
  log2 = log1 ++ [OpAssignAdvice (nth 0 (cards holdem_config) O) 0 c0].
Proof.
  rewrite holdem_config_eq in Hfree. cbn [cards] in Hfree.
  pose proof (Hfree 0%nat ltac:(lia)) as H0; pose proof (Hfree 1%nat ltac:(lia)) as H1;
  pose proof (Hfree 2%nat ltac:(lia)) as H2; pose proof (Hfree 3%nat ltac:(lia)) as H3;
  pose proof (Hfree 4%nat ltac:(lia)) as H4; cbn [nth] in H0, H1, H2, H3, H4.
  assert (E : backend_run (write_once_backend e) start st
                (assign_card_ops holdem_config (c0, c1) (t0, t1, t2)) =
              Some (fold_left (fun s op => apply_op start op s)
                      (assign_card_ops holdem_config (c0, c1) (t0, t1, t2)) st)).
  { rewrite holdem_config_eq.
    cbn [assign_card_ops cards nth seq combine map backend_run fold_left
         write_once_backend apply_op st_adv Nat.eqb andb Z.of_nat].
    rewrite !Z.add_0_r, H0, H1, H2, H3, H4. reflexivity. }
  rewrite assign_card_run, (run_calls_ok _ _ _ _ _ log E).
  split; [reflexivity |].
  rewrite assign_card_run, holdem_config_eq.
  cbn [assign_card_ops cards nth seq combine map run_calls fold_left].
  cbv beta iota zeta delta [rm_bind region_call write_once_backend apply_op rm_ret].
  cbn [st_adv Nat.eqb andb Z.of_nat].
  rewrite Z.eqb_refl. cbn [andb].
  repeat split; reflexivity.
Qed.

(** ** Witnesses for the further properties *)

Lemma row_satisfied_local_witness :
  let t := enabled_table [1%nat] (fun _ _ => 1) in
  let t' := enabled_table [1%nat] (fun c _ => if Nat.eqb c 9 then 5 else 1) in
  (forall s, (s < 6)%nat -> t_sel t s 0 = t_sel t' s 0) /\
  (forall c, (c < 7)%nat -> t_adv t c 0 = t_adv t' c 0) /\
  row_satisfied 7 holdem_cs t 0 = row_satisfied 7 holdem_cs t' 0.
Proof.
  cbv zeta.
  assert (H1 : forall s, (s < 6)%nat ->
            t_sel (enabled_table [1%nat] (fun _ _ => 1)) s 0 =
            t_sel (enabled_table [1%nat] (fun c _ => if Nat.eqb c 9 then 5 else 1)) s 0)
    by (intros; reflexivity).
  assert (H2 : forall c, (c < 7)%nat ->
            t_adv (enabled_table [1%nat] (fun _ _ => 1)) c 0 =
            t_adv (enabled_table [1%nat] (fun c _ => if Nat.eqb c 9 then 5 else 1)) c 0).
  { intros c Hc. cbn [enabled_table t_adv].
    replace (Nat.eqb c 9) with false by (symmetry; apply Nat.eqb_neq; lia).
    reflexivity. }
  exact (conj H1 (conj H2 (row_satisfied_local 7 _ _ 0 H1 H2))).
Defined.

Lemma cards_unconstrained_by_counting_gates_witness :
  let t := enabled_table [2%nat] (fun c _ => if Nat.eqb c 5 then 1 else 0) in
  let t' := enabled_table [2%nat]
              (fun c _ => if Nat.eqb c 5 then 1 else if Nat.ltb c 5 then 42 else 0) in
  t_sel t (q_straight holdem_config) 0 = false /\
  t_sel t (q_flush holdem_config) 0 = false /\
  t_sel t' = t_sel t /\
  (forall c row, ~ In c (cards holdem_config) -> t_adv t' c row = t_adv t c row) /\
  row_satisfied 7 holdem_cs t' 0 = row_satisfied 7 holdem_cs t 0.
Proof.
  cbv zeta.
  assert (Hst : t_sel (enabled_table [2%nat] (fun c _ => if Nat.eqb c 5 then 1 else 0))
                  (q_straight holdem_config) 0 = false) by (vm_compute; reflexivity).
  assert (Hfl : t_sel (enabled_table [2%nat] (fun c _ => if Nat.eqb c 5 then 1 else 0))
                  (q_flush holdem_config) 0 = false) by (vm_compute; reflexivity).
  assert (Hsel : t_sel (enabled_table [2%nat]
                   (fun c _ => if Nat.eqb c 5 then 1 else if Nat.ltb c 5 then 42 else 0)) =
                 t_sel (enabled_table [2%nat] (fun c _ => if Nat.eqb c 5 then 1 else 0)))
    by reflexivity.
  assert (Hadv : forall c row, ~ In c (cards holdem_config) ->
            t_adv (enabled_table [2%nat]
                     (fun c _ => if Nat.eqb c 5 then 1 else if Nat.ltb c 5 then 42 else 0))
              c row =
            t_adv (enabled_table [2%nat] (fun c _ => if Nat.eqb c 5 then 1 else 0)) c row).
  { intros c row Hn. cbn [enabled_table t_adv].
    destruct (Nat.eqb c 5); [reflexivity |].
    destruct (Nat.ltb c 5) eqn:E; [| reflexivity].
    exfalso. apply Hn. apply Nat.ltb_lt in E. rewrite holdem_config_eq. cbn [cards].
    destruct c as [|[|[|[|[|c]]]]]; cbn [In]; tauto || lia. }
  exact (conj Hst (conj Hfl (conj Hsel (conj Hadv
           (cards_unconstrained_by_counting_gates 7 _ _ 0 Hst Hfl Hsel Hadv))))).
Defined.

Lemma straight_flush_row_satisfiable_iff_witness :
  let t := enabled_table [0%nat; 1%nat] (fun _ _ => 8) in
  (forall s, t_sel t s 0 = true <->
             In s [q_straight holdem_config; q_flush holdem_config]) /\
  (row_satisfied 7 holdem_cs t 0 = true <->
   (forall i, (i < 5)%nat ->
      t_adv t (nth i (cards holdem_config) O) 0 mod 7 = 1 mod 7)).
Proof.
  cbv zeta.
  assert (H : forall s, t_sel (enabled_table [0%nat; 1%nat] (fun _ _ => 8)) s 0 = true <->
                        In s [q_straight holdem_config; q_flush holdem_config])
    by enabled_hyp.
  split; [exact H | exact (straight_flush_row_satisfiable_iff 7 _ 0 H)].
Defined.

Lemma conflicting_count_selectors_unsat_witness :
  let t := enabled_table [4%nat; 5%nat] (fun c _ => if Nat.eqb c 6 then 3 else 0) in
  1 < 7 /\
  ((t_sel t (q_one_pair holdem_config) 0 = true /\
    t_sel t (q_two_pair holdem_config) 0 = true) \/
   (t_sel t (q_three_of_a_kind holdem_config) 0 = true /\
    t_sel t (q_four_of_a_kind holdem_config) 0 = true)) /\
  row_satisfied 7 holdem_cs t 0 = false.
Proof.
  cbv zeta.
  assert (Hp : 1 < 7) by lia.
  assert (Hconf :
    (t_sel (enabled_table [4%nat; 5%nat] (fun c _ => if Nat.eqb c 6 then 3 else 0))
       (q_one_pair holdem_config) 0 = true /\
     t_sel (enabled_table [4%nat; 5%nat] (fun c _ => if Nat.eqb c 6 then 3 else 0))
       (q_two_pair holdem_config) 0 = true) \/
    (t_sel (enabled_table [4%nat; 5%nat] (fun c _ => if Nat.eqb c 6 then 3 else 0))
       (q_three_of_a_kind holdem_config) 0 = true /\
     t_sel (enabled_table [4%nat; 5%nat] (fun c _ => if Nat.eqb c 6 then 3 else 0))
       (q_four_of_a_kind holdem_config) 0 = true))
    by (right; split; vm_compute; reflexivity).
  exact (conj Hp (conj Hconf (conflicting_count_selectors_unsat 7 _ 0 Hp Hconf))).
Defined.

Lemma synthesize_layout_independent_of_witness_witness :
  (forall st0 s op, accept_all st0 s op = None) /\
  let '(res1, (_, log1)) :=
    synthesize accept_all
      (mkCircuit (Some (ATrivial 3), Some (ATrivial 9))
         (Some (ATrivial 1), Some (ATrivial 2), Some AZero))
      holdem_config 0 (empty_store, []) in
  let '(res2, (st2, log2)) :=
    synthesize accept_all
      (without_witnesses
         (mkCircuit (Some (ATrivial 3), Some (ATrivial 9))
            (Some (ATrivial 1), Some (ATrivial 2), Some AZero)))
      holdem_config 0 (empty_store, []) in
  res1 = Ok tt /\ res2 = Ok tt /\ map op_cell log1 = map op_cell log2 /\
  (forall i, (i < 5)%nat ->
     st_adv st2 (nth i (cards holdem_config) O) 0 = Some None).
Proof.
  assert (Hacc : forall st0 s op, accept_all st0 s op = None) by reflexivity.
  split; [exact Hacc |].
  exact (synthesize_layout_independent_of_witness accept_all Hacc
           (mkCircuit (Some (ATrivial 3), Some (ATrivial 9))
              (Some (ATrivial 1), Some (ATrivial 2), Some AZero)) 0 empty_store []).
Defined.

Lemma assign_card_twice_rejected_witness :
  (forall i, (i < 5)%nat ->
     st_adv empty_store (nth i (cards holdem_config) O) 0 = None) /\
  let '(res1, (st1, log1)) :=
    assign_card (write_once_backend Synthesis) holdem_config 0
      (Some (ATrivial 3), None) (Some (ATrivial 1), Some AZero, None)
      (empty_store, []) in
  res1 = Ok tt /\
  let '(res2, (st2, log2)) :=
    assign_card (write_once_backend Synthesis) holdem_config 0
      (Some (ATrivial 3), None) (Some (ATrivial 1), Some AZero, None)
      (st1, log1) in
  res2 = Err Synthesis /\ st2 = st1 /\
  log2 = log1 ++ [OpAssignAdvice (nth 0 (cards holdem_config) O) 0 (Some (ATrivial 3))].
Proof.
  assert (Hfree : forall i, (i < 5)%nat ->
            st_adv empty_store (nth i (cards holdem_config) O) 0 = None)
    by (intros; reflexivity).
  split; [exact Hfree |].
  exact (assign_card_twice_rejected Synthesis 0 _ _ _ _ _ empty_store [] Hfree).
Defined.
